(** * Task service: the request-validation-to-persistence pipeline

    A shallow embedding of [main_service/app] (models.py, database.py,
    main.py): the three views of a Task, the field rules of [TaskBase], the
    two handlers and the health check, and the routing that turns what a
    handler returns or raises into an HTTP response.

    The repository declares its rules and leaves their execution to the
    libraries it is built on (pydantic through SQLModel for the fields,
    FastAPI/Starlette for the routing, SQLAlchemy for the unit of work).
    Module [Validators], the session operations and the function [route]
    write out the behaviour of those libraries that the declarations select;
    the definitions of models.py and main.py name the source lines they
    stand for. *)

From Stdlib Require Import QArith Qcanon.
From stdpp Require Import base numbers gmap strings pretty list.

Set Warnings "-register-all".
#[local] Open Scope string_scope.
#[local] Open Scope list_scope.
#[local] Open Scope Z_scope.

(** ** JSON values

    A request body after [json.loads], and a response body before
    [json.dumps].  A float is the rational it denotes. *)

Inductive JSON :=
| JNull
| JBool (b : bool)
| JInt (n : Z)
| JFloat (x : Qc)
| JStr (s : string)
| JArr (xs : list JSON)
| JObj (kvs : gmap string JSON).

(** ** Field errors

    One entry of pydantic's [errors()] list, as FastAPI puts it under
    ["detail"]: the keys [type], [loc], [msg] and [input]. *)

Record ErrorDetails := mkError {
  err_type : string;
  err_loc : list string;
  err_msg : string;
  err_input : JSON
}.

Definition error_json (e : ErrorDetails) : JSON :=
  JObj (<["type" := JStr (err_type e)]>
       (<["loc" := JArr (JStr <$> err_loc e)]>
       (<["msg" := JStr (err_msg e)]>
       (<["input" := err_input e]> ∅)))).

Inductive Validated (A : Type) :=
| Valid (a : A)
| Invalid (errors : list ErrorDetails).
Arguments Valid {A} a.
Arguments Invalid {A} errors.

Definition errors_of {A} (r : Validated A) : list ErrorDetails :=
  match r with Valid _ => [] | Invalid es => es end.

Definition is_valid {A} (r : Validated A) : bool :=
  match r with Valid _ => true | Invalid _ => false end.

(** ** The validators the annotations of models.py select

    [str], [Optional[str]] and [bool] in pydantic's default (lax) mode, on
    values that came from JSON. *)

Module Validators.

Definition Validator (A : Type) : Type := list string → JSON → Validated A.

(** [len(s)], the number of characters of a string. *)
Definition len (s : string) : nat := String.length s.

(** [str], with the [max_length] of the field when it has one.  Only a
    JSON string is a string: numbers are not converted. *)
Definition str_validator (max_length : option nat) : Validator string :=
  λ loc x,
    match x with
    | JStr s =>
        match max_length with
        | Some n =>
            if (len s <=? n)%nat then Valid s
            else Invalid [mkError "string_too_long" loc
                   ("String should have at most " +:+ pretty n +:+ " characters") x]
        | None => Valid s
        end
    | _ => Invalid [mkError "string_type" loc "Input should be a valid string" x]
    end.

(** [Optional[T]]: [None] passes, anything else goes to [T]. *)
Definition nullable {A} (v : Validator A) : Validator (option A) :=
  λ loc x,
    match x with
    | JNull => Valid None
    | _ => match v loc x with
           | Valid a => Valid (Some a)
           | Invalid es => Invalid es
           end
    end.

Definition to_lower (c : Ascii.ascii) : Ascii.ascii :=
  let n := Ascii.nat_of_ascii c in
  if ((65 <=? n) && (n <=? 90))%nat then Ascii.ascii_of_nat (n + 32) else c.

Fixpoint lower (s : string) : string :=
  match s with
  | EmptyString => EmptyString
  | String c s' => String (to_lower c) (lower s')
  end.

Definition eq_ignore_ascii_case (s t : string) : bool :=
  bool_decide (lower s = lower t).

(** The strings lax mode reads as a boolean. *)
Definition str_as_bool (s : string) : option bool :=
  if bool_decide (s = "0") || eq_ignore_ascii_case s "f"
     || eq_ignore_ascii_case s "n" || eq_ignore_ascii_case s "no"
     || eq_ignore_ascii_case s "off" || eq_ignore_ascii_case s "false"
  then Some false
  else if bool_decide (s = "1") || eq_ignore_ascii_case s "t"
     || eq_ignore_ascii_case s "y" || eq_ignore_ascii_case s "on"
     || eq_ignore_ascii_case s "yes" || eq_ignore_ascii_case s "true"
  then Some true
  else None.

(** What lax mode makes of a JSON value where a [bool] is expected:
    a boolean is itself; the integers and floats 0 and 1 and the strings
    of [str_as_bool] are converted; nothing else is. *)
Definition as_bool (x : JSON) : option bool :=
  match x with
  | JBool b => Some b
  | JInt n => if bool_decide (n = 0) then Some false
              else if bool_decide (n = 1) then Some true else None
  | JFloat q => if bool_decide (q = Q2Qc 0) then Some false
                else if bool_decide (q = Q2Qc 1) then Some true else None
  | JStr s => str_as_bool s
  | _ => None
  end.

Definition bool_validator : Validator bool :=
  λ loc x,
    match as_bool x with
    | Some b => Valid b
    | None =>
        match x with
        | JInt _ | JFloat _ | JStr _ =>
            Invalid [mkError "bool_parsing" loc
              "Input should be a valid boolean, unable to interpret input" x]
        | _ => Invalid [mkError "bool_type" loc "Input should be a valid boolean" x]
        end
    end.

(** One field of a model read from the mapping [data]: its validator on
    the value when the key is there, its default when it is not, and the
    error [missing] when it has no default. *)
Definition model_field {A} (name : string) (default : option A)
    (v : Validator A) (loc : list string) (data : gmap string JSON) : Validated A :=
  match data !! name with
  | Some x => v (loc ++ [name]) x
  | None =>
      match default with
      | Some d => Valid d
      | None => Invalid [mkError "missing" (loc ++ [name]) "Field required" (JObj data)]
      end
  end.

End Validators.
Import Validators.

(** ** models.py *)

(** [class TaskBase(SQLModel)], lines 5-13. *)
Record TaskBase := mkTaskBase {
  title : string;
  description : option string;
  is_completed : bool
}.

(** [title: str = Field(index=True, max_length=255, nullable=False)] *)
Definition title_field : list string → gmap string JSON → Validated string :=
  model_field "title" None (str_validator (Some 255%nat)).

(** [description: Optional[str] = Field(default=None, sa_column=Text())] *)
Definition description_field : list string → gmap string JSON → Validated (option string) :=
  model_field "description" (Some None) (nullable (str_validator None)).

(** [is_completed: bool = Field(default=False)] *)
Definition is_completed_field : list string → gmap string JSON → Validated bool :=
  model_field "is_completed" (Some false) bool_validator.

(** Validation of a mapping against [TaskBase]: every field is tried, in
    the order of the class, and the errors of all of them are reported.
    Keys that name no field are not looked at (the model configuration
    leaves [extra] at its default, [ignore]). *)
Definition TaskBase_validate (loc : list string) (data : gmap string JSON)
    : Validated TaskBase :=
  match title_field loc data, description_field loc data, is_completed_field loc data with
  | Valid t, Valid d, Valid c => Valid (mkTaskBase t d c)
  | rt, rd, rc => Invalid (errors_of rt ++ errors_of rd ++ errors_of rc)
  end.

(** [class TaskCreate(TaskBase): pass], lines 28-29. *)
Definition TaskCreate : Type := TaskBase.
Definition TaskCreate_validate : list string → gmap string JSON → Validated TaskCreate :=
  TaskBase_validate.

(** [class Task(TaskBase, table=True)], lines 18-23: the fields of the base
    and [id: Optional[int] = Field(default=None, primary_key=True)]. *)
Record Task := mkTask {
  Task_base :> TaskBase;
  Task_id : option Z
}.

(** [class TaskRead(TaskBase)], lines 34-35: the fields of the base and
    [id: int]. *)
Record TaskRead := mkTaskRead {
  TaskRead_base :> TaskBase;
  TaskRead_id : Z
}.

(** ** The world a request runs in *)

(** The calls a request sends to the database. *)
Inductive DbCall := FLUSH | REFRESH | SELECT_ALL.

(** One row of the table [task]: the generated primary key and the columns
    of the base. *)
Record Row := mkRow {
  row_id : Z;
  row_data : TaskBase
}.

Record World := mkWorld {
  table : list Row;                 (* the rows of [task], in storage order *)
  sequence : Z;                     (* the next value of the generated key  *)
  fault : DbCall → option string;   (* the error, if any, the database
                                       answers each kind of call with      *)
  calls : list DbCall;              (* the calls sent so far                *)
  session : list Task;              (* the objects of the request's Session *)
  stdout : list string              (* what [print] wrote                   *)
}.

Definition set_table_sequence (t : list Row) (n : Z) (w : World) : World :=
  mkWorld t n (fault w) (calls w) (session w) (stdout w).
Definition set_fault (f : DbCall → option string) (w : World) : World :=
  mkWorld (table w) (sequence w) f (calls w) (session w) (stdout w).
Definition record_call (c : DbCall) (w : World) : World :=
  mkWorld (table w) (sequence w) (fault w) (calls w ++ [c]) (session w) (stdout w).
Definition set_session (s : list Task) (w : World) : World :=
  mkWorld (table w) (sequence w) (fault w) (calls w) s (stdout w).
Definition write_stdout (line : string) (w : World) : World :=
  mkWorld (table w) (sequence w) (fault w) (calls w) (session w) (stdout w ++ [line]).

(** ** Exceptions and the monad of handler code *)

Inductive Exception :=
| ValidationError (errors : list ErrorDetails)     (* pydantic                *)
| SQLAlchemyError (message : string)               (* the database layer      *)
| HTTPException (status_code : Z) (detail : JSON). (* fastapi                 *)

(** [str(e)], as [print] shows it.  In this program it is only taken of
    errors of the database layer. *)
Definition str (e : Exception) : string :=
  match e with
  | SQLAlchemyError m => m
  | ValidationError es => pretty (length es) +:+ " validation error(s)"
  | HTTPException sc _ => pretty sc
  end.

Inductive Outcome (A : Type) :=
| Return (a : A)
| Raise (e : Exception).
Arguments Return {A} a.
Arguments Raise {A} e.

Definition M (A : Type) : Type := World → Outcome A * World.

#[global] Instance M_ret : MRet M := λ A a w, (Return a, w).
#[global] Instance M_bind : MBind M := λ A B f m w,
  match m w with
  | (Return a, w') => f a w'
  | (Raise e, w') => (Raise e, w')
  end.

Definition raise {A} (e : Exception) : M A := λ w, (Raise e, w).

(** [try: body  except ... as e: handler e] *)
Definition try_except {A} (body : M A) (handler : Exception → M A) : M A := λ w,
  match body w with
  | (Return a, w') => (Return a, w')
  | (Raise e, w') => handler e w'
  end.

Definition print (line : string) : M unit := λ w, (Return (), write_stdout line w).

(** ** The Session (database.py, [get_session]; sqlmodel's unit of work)

    An object handed to [session.add] stays one object: [commit] and
    [refresh] change it in place.  The session keeps its objects in a list
    and the handler holds an index into it. *)

(** [session.add(obj)] *)
Definition session_add (obj : Task) : M nat := λ w,
  (Return (length (session w)), set_session (session w ++ [obj]) w).

(** The INSERT of one pending object: the key comes from the sequence. *)
Definition flush_object (acc : list Row * Z * list Task) (obj : Task)
    : list Row * Z * list Task :=
  let '(t, n, done) := acc in
  match Task_id obj with
  | Some _ => (t, n, done ++ [obj])
  | None => (t ++ [mkRow n obj], n + 1, done ++ [mkTask obj (Some n)])
  end.

(** [session.commit()]: the pending objects are written in one
    transaction, or the database's error is raised and nothing is. *)
Definition session_commit : M unit := λ w,
  let w := record_call FLUSH w in
  match fault w FLUSH with
  | Some cause => (Raise (SQLAlchemyError cause), w)
  | None =>
      let '(t, n, objs) := foldl flush_object (table w, sequence w, []) (session w) in
      (Return (), set_session objs (set_table_sequence t n w))
  end.

(** [session.refresh(obj)]: the row of the object's key is read again. *)
Definition session_refresh (ref : nat) : M unit := λ w,
  match session w !! ref with
  | Some (mkTask _ (Some n)) =>
      let w := record_call REFRESH w in
      match fault w REFRESH with
      | Some cause => (Raise (SQLAlchemyError cause), w)
      | None =>
          match List.find (λ r, bool_decide (row_id r = n)) (table w) with
          | Some r =>
              (Return (), set_session (<[ref := mkTask (row_data r) (Some n)]> (session w)) w)
          | None => (Raise (SQLAlchemyError "Could not refresh instance"), w)
          end
      end
  | _ => (Raise (SQLAlchemyError "Instance is not persistent within this Session"), w)
  end.

(** Reading the object a reference names. *)
Definition deref (ref : nat) : M Task := λ w,
  match session w !! ref with
  | Some obj => (Return obj, w)
  | None => (Raise (SQLAlchemyError "Instance is not bound to a Session"), w)
  end.

(** [session.exec(select(Task)).all()] *)
Definition session_exec_select_all : M (list Task) := λ w,
  let w := record_call SELECT_ALL w in
  match fault w SELECT_ALL with
  | Some cause => (Raise (SQLAlchemyError cause), w)
  | None => (Return ((λ r, mkTask (row_data r) (Some (row_id r))) <$> table w), w)
  end.

(** [with Session(engine) as session: yield session]: a new, empty session
    for the request, closed when the request is over. *)
Definition get_session {A} (handler : M A) : M A := λ w,
  let '(r, w') := handler (set_session [] w) in (r, set_session [] w').

(** ** main.py *)

(** [Task.model_validate(task)]: the fields of the input view, checked
    again against the rules of the base; [id] takes its default. *)
Definition Task_model_validate (task : TaskCreate) : M Task :=
  if (len (title task) <=? 255)%nat then mret (mkTask task None)
  else raise (ValidationError
         [mkError "string_too_long" ["title"]
            "String should have at most 255 characters" (JStr (title task))]).

Definition HTTP_200_OK : Z := 200.
Definition HTTP_201_CREATED : Z := 201.
Definition HTTP_422_UNPROCESSABLE_ENTITY : Z := 422.
Definition HTTP_500_INTERNAL_SERVER_ERROR : Z := 500.

(** [health_check], lines 41-44. *)
Definition health_check : M JSON :=
  mret (JObj (<["status" := JStr "ok"]> (<["message" := JStr "API is running!"]> ∅))).

(** [create_task], lines 47-72. *)
Definition create_task (task : TaskCreate) : M Task :=
  try_except
    (db_task ← Task_model_validate task;
     ref ← session_add db_task;
     session_commit;;
     session_refresh ref;;
     deref ref)
    (λ e,
       match e with
       | ValidationError errors =>
           raise (HTTPException HTTP_422_UNPROCESSABLE_ENTITY
                    (JArr (error_json <$> errors)))
       | _ =>
           print ("Error al crear tarea: " +:+ str e);;
           raise (HTTPException HTTP_500_INTERNAL_SERVER_ERROR
                    (JStr "Error interno del servidor al procesar la solicitud."))
       end).

(** [read_tasks], lines 75-79. *)
Definition read_tasks : M (list Task) :=
  tasks ← session_exec_select_all;
  mret tasks.

(** ** Requests, responses and the routing of [app] *)

Inductive Request :=
| GET_health
| POST_tasks (payload : gmap string JSON)
| GET_tasks.

Inductive Body :=
| JSONBody (j : JSON)
| TextBody (s : string).

Record Response := mkResponse {
  status_code : Z;
  body : Body
}.

(** [response_model=TaskRead]: what a handler returns is validated against
    the output view before it is sent: [id] must be an integer and the rules
    of the base hold. *)
Definition TaskRead_validate (obj : Task) : option TaskRead :=
  match Task_id obj with
  | Some n => if (len (title obj) <=? 255)%nat then Some (mkTaskRead obj n) else None
  | None => None
  end.

Definition TaskRead_json (t : TaskRead) : JSON :=
  JObj (<["title" := JStr (title t)]>
       (<["description" := from_option JStr JNull (description t)]>
       (<["is_completed" := JBool (is_completed t)]>
       (<["id" := JInt (TaskRead_id t)]> ∅)))).

(** [response_model=List[TaskRead]] *)
Definition TaskRead_list_json (objs : list Task) : option JSON :=
  JArr <$> mapM (λ obj, TaskRead_json <$> TaskRead_validate obj) objs.

(** [http_exception_handler], lines 30-37. *)
Definition http_exception_handler (exc_status_code : Z) (exc_detail : JSON) : Response :=
  mkResponse exc_status_code (JSONBody (JObj {["detail" := exc_detail]})).

(** The answer to a body that fails validation (lines 27-28: the
    framework's own contract). *)
Definition request_validation_error (errors : list ErrorDetails) : Response :=
  mkResponse HTTP_422_UNPROCESSABLE_ENTITY
    (JSONBody (JObj {["detail" := JArr (error_json <$> errors)]})).

(** The answer to an exception no handler is registered for, and to a
    return value that fails its response model. *)
Definition server_error : Response :=
  mkResponse HTTP_500_INTERNAL_SERVER_ERROR (TextBody "Internal Server Error").

(** A route: run the handler, send what it returns through the response
    model with the route's status code, send what it raises through the
    exception handlers. *)
Definition route {A} (status : Z) (response_model : A → option JSON)
    (handler : M A) (w : World) : Response * World :=
  match handler w with
  | (Return a, w') =>
      match response_model a with
      | Some j => (mkResponse status (JSONBody j), w')
      | None => (server_error, w')
      end
  | (Raise (HTTPException sc d), w') => (http_exception_handler sc d, w')
  | (Raise _, w') => (server_error, w')
  end.

(** The three routes of [app], lines 41, 47 and 75. *)
Definition app (req : Request) (w : World) : Response * World :=
  match req with
  | GET_health => route HTTP_200_OK Some health_check w
  | POST_tasks payload =>
      match TaskCreate_validate ["body"] payload with
      | Invalid errors => (request_validation_error errors, w)
      | Valid task =>
          route HTTP_201_CREATED (λ obj, TaskRead_json <$> TaskRead_validate obj)
            (get_session (create_task task)) w
      end
  | GET_tasks => route HTTP_200_OK TaskRead_list_json (get_session read_tasks) w
  end.

(** ** The service over time *)

(** [create_db_and_tables] on a new database: the table exists and is
    empty, and the first generated key is 1. *)
Definition new_world : World := mkWorld [] 1 (λ _, None) [] [] [].

Definition database_up : DbCall → option string := λ _, None.

(** The service and everything it has answered so far. *)
Record Server := mkServer {
  world : World;
  sent : list Response
}.

(** One request, arriving while the database is in condition [f]. *)
Definition serve (s : Server) (ev : (DbCall → option string) * Request) : Server :=
  let '(r, w') := app ev.2 (set_fault ev.1 (world s)) in
  mkServer w' (sent s ++ [r]).

Definition run (evs : list ((DbCall → option string) * Request)) : Server :=
  foldl serve (mkServer new_world []) evs.

(** The ids a client has seen in a response: the [id] of a Task, or of each
    Task of a list. *)
Definition id_of_json (j : JSON) : option Z :=
  match j with
  | JObj kvs => match kvs !! "id" with Some (JInt n) => Some n | _ => None end
  | _ => None
  end.

Definition ids_of_response (r : Response) : list Z :=
  match body r with
  | JSONBody (JArr xs) => omap id_of_json xs
  | JSONBody j => option_list (id_of_json j)
  | TextBody _ => []
  end.

Definition observed (rs : list Response) : list Z := rs ≫= ids_of_response.

(** A Task of a response carries the fields of the input view [v]. *)
Definition same_fields (v : TaskBase) (t : TaskRead) : Prop :=
  title t = title v ∧ description t = description v ∧ is_completed t = is_completed v.

#[global] Instance same_fields_dec v t : Decision (same_fields v t).
Proof. unfold same_fields. apply _. Defined.

(** The response to one request, the database being in condition [f]. *)
Definition respond (s : Server) (ev : (DbCall → option string) * Request) : Response :=
  (app ev.2 (set_fault ev.1 (world s))).1.

(** A database that answers no call, with [cause] as its error, and one
    that takes the insert and fails the refresh. *)
Definition database_down (cause : string) : DbCall → option string := λ _, Some cause.


(** What every state of the service turns out to satisfy: the keys of the
    rows and the ids the clients have seen are positive and below the
    sequence, and every stored title fits its column. *)
Record consistent (s : Server) : Prop := mkConsistent {
  sequence_pos : 0 < sequence (world s);
  keys_below : Forall (λ r, 0 < row_id r < sequence (world s)) (table (world s));
  titles_fit : Forall (λ r, (len (title (row_data r)) ≤ 255)%nat) (table (world s));
  observed_below : Forall (λ i, 0 < i < sequence (world s)) (observed (sent s))
}.

(** A row as the output view shows it. *)
Definition TaskRead_of_row (r : Row) : TaskRead := mkTaskRead (row_data r) (row_id r).

(** The [detail] of line 71. *)
Definition generic_detail : JSON :=
  JStr "Error interno del servidor al procesar la solicitud.".

(** ** What a client reads in a response *)

Definition task_of_json (j : JSON) : option TaskRead :=
  match j with
  | JObj kvs =>
      match kvs !! "title", kvs !! "description", kvs !! "is_completed", kvs !! "id" with
      | Some (JStr t), Some JNull, Some (JBool c), Some (JInt n) =>
          Some (mkTaskRead (mkTaskBase t None c) n)
      | Some (JStr t), Some (JStr d), Some (JBool c), Some (JInt n) =>
          Some (mkTaskRead (mkTaskBase t (Some d) c) n)
      | _, _, _, _ => None
      end
  | _ => None
  end.

Definition tasks_of_response (r : Response) : option (list TaskRead) :=
  match body r with
  | JSONBody (JArr xs) => mapM task_of_json xs
  | _ => None
  end.

(** ** Payloads *)

(** The payload of [test_create_and_read_task]. *)
Definition comprar_leche : gmap string JSON :=
  <["title" := JStr "Comprar leche"]>
  (<["description" := JStr "Leche entera"]>
  (<["is_completed" := JBool false]> ∅)).

(** The same task with a null description and the number 1 for the flag. *)
Definition leche_null_1 : gmap string JSON :=
  <["title" := JStr "Comprar leche"]>
  (<["description" := JNull]>
  (<["is_completed" := JInt 1]> ∅)).

(** ["A" * n], as in [test_validation_error_422]. *)
Fixpoint str_mul (s : string) (n : nat) : string :=
  match n with
  | O => ""
  | S n' => s +:+ str_mul s n'
  end.





(** ** The specification's wording, where it is compared with the code *)




(** An event after which one more row is stored: a create whose payload
    passes validation, arriving while the database takes the insert. *)
Definition stores (ev : (DbCall → option string) * Request) : bool :=
  match ev.2 with
  | POST_tasks p =>
      is_valid (TaskCreate_validate ["body"] p) && bool_decide (ev.1 FLUSH = None)
  | _ => false
  end.

(** The ids the service has handed out: those of the responses 201. *)
Definition created_ids (rs : list Response) : list Z :=
  filter (λ r, status_code r = 201) rs ≫= ids_of_response.

(** * Proofs *)

(** ** Validation of a payload *)

Section ValidationFacts.
Context (loc : list string) (p : gmap string JSON).

Lemma title_field_Valid s :
  title_field loc p = Valid s ↔ p !! "title" = Some (JStr s) ∧ (len s ≤ 255)%nat.
Proof.
  unfold title_field, model_field, str_validator.
  destruct (p !! "title") as [[]|] eqn:E; try (split; [discriminate | intros [? ?]; discriminate]).
  destruct (Nat.leb_spec (len s0) 255); split.
  - intros [= ->]. auto.
  - intros [[= ->] _]. reflexivity.
  - discriminate.
  - intros [[= ->] ?]. lia.
Qed.



Lemma TaskBase_validate_Valid v :
  TaskBase_validate loc p = Valid v ↔
  title_field loc p = Valid (title v) ∧
  description_field loc p = Valid (description v) ∧
  is_completed_field loc p = Valid (is_completed v).
Proof.
  unfold TaskBase_validate.
  destruct (title_field loc p), (description_field loc p), (is_completed_field loc p);
    split; try discriminate; try (intros (?&?&?); discriminate).
  - intros [= <-]. auto.
  - intros ([= ->]&[= ->]&[= ->]). by destruct v.
Qed.

End ValidationFacts.

Lemma validate_fits loc p v :
  TaskCreate_validate loc p = Valid v → (len (title v) ≤ 255)%nat.
Proof.
  intros H. apply TaskBase_validate_Valid in H as (Ht & _ & _).
  by apply title_field_Valid in Ht as [_ ?].
Qed.



(** ** What [create_task] does, case by case *)

Lemma find_fresh_row (t : list Row) n v :
  Forall (λ r, row_id r ≠ n) t →
  List.find (λ r, bool_decide (row_id r = n)) (t ++ [mkRow n v]) = Some (mkRow n v).
Proof.
  induction 1 as [|r t Hr _ IH]; simpl.
  - by rewrite bool_decide_eq_true_2.
  - by rewrite bool_decide_eq_false_2.
Qed.

Lemma create_task_flush_fault w v cause :
  (len (title v) ≤ 255)%nat → fault w FLUSH = Some cause →
  get_session (create_task v) w =
    (Raise (HTTPException 500 generic_detail),
     mkWorld (table w) (sequence w) (fault w) (calls w ++ [FLUSH]) []
       (stdout w ++ ["Error al crear tarea: " +:+ cause])).
Proof.
  intros Hlen Hf. destruct w as [t n f c s o]. simpl in Hf.
  unfold get_session, create_task, try_except, Task_model_validate.
  apply Nat.leb_le in Hlen. rewrite Hlen.
  unfold mbind, M_bind, mret, M_ret, session_add, session_commit. simpl.
  rewrite Hf. reflexivity.
Qed.

Lemma create_task_refresh_fault w v cause :
  (len (title v) ≤ 255)%nat → fault w FLUSH = None → fault w REFRESH = Some cause →
  get_session (create_task v) w =
    (Raise (HTTPException 500 generic_detail),
     mkWorld (table w ++ [mkRow (sequence w) v]) (sequence w + 1) (fault w)
       (calls w ++ [FLUSH; REFRESH]) []
       (stdout w ++ ["Error al crear tarea: " +:+ cause])).
Proof.
  intros Hlen Hf Hr. destruct w as [t n f c s o]. simpl in *.
  unfold get_session, create_task, try_except, Task_model_validate.
  apply Nat.leb_le in Hlen. rewrite Hlen.
  unfold mbind, M_bind, mret, M_ret, session_add, session_commit, session_refresh. simpl.
  rewrite Hf. simpl. rewrite Hr. simpl.
  unfold write_stdout, set_session, record_call, set_table_sequence. simpl.
  by rewrite <- app_assoc.
Qed.

Lemma create_task_stored w v :
  (len (title v) ≤ 255)%nat → fault w FLUSH = None → fault w REFRESH = None →
  Forall (λ r, row_id r ≠ sequence w) (table w) →
  get_session (create_task v) w =
    (Return (mkTask v (Some (sequence w))),
     mkWorld (table w ++ [mkRow (sequence w) v]) (sequence w + 1) (fault w)
       (calls w ++ [FLUSH; REFRESH]) [] (stdout w)).
Proof.
  intros Hlen Hf Hr Hfresh. destruct w as [t n f c s o]. simpl in *.
  unfold get_session, create_task, try_except, Task_model_validate.
  apply Nat.leb_le in Hlen. rewrite Hlen.
  unfold mbind, M_bind, mret, M_ret, session_add, session_commit, session_refresh, deref. simpl.
  rewrite Hf. simpl. rewrite Hr. simpl. rewrite find_fresh_row by done. simpl.
  unfold set_session, record_call, set_table_sequence. simpl.
  by rewrite <- app_assoc.
Qed.

Lemma create_task_table w v :
  (len (title v) ≤ 255)%nat → fault w FLUSH = None →
  table (get_session (create_task v) w).2 = table w ++ [mkRow (sequence w) v].
Proof.
  intros Hlen Hf. destruct w as [t n f c s o]. simpl in *.
  unfold get_session, create_task, try_except, Task_model_validate.
  apply Nat.leb_le in Hlen. rewrite Hlen.
  unfold mbind, M_bind, mret, M_ret, session_add, session_commit, session_refresh, deref. simpl.
  rewrite Hf. simpl. destruct (f REFRESH); simpl; [done|].
  by destruct (List.find _ _).
Qed.

(** ** The responses of the routes *)

Lemma route_world {A} st (rm : A → option JSON) (h : M A) w :
  (route st rm h w).2 = (h w).2.
Proof.
  unfold route. destruct (h w) as [[a|[]] w']; simpl; try done.
  by destruct (rm a).
Qed.

Lemma app_POST_invalid w p errors :
  TaskCreate_validate ["body"] p = Invalid errors →
  app (POST_tasks p) w = (request_validation_error errors, w).
Proof. intros H. unfold app. by rewrite H. Qed.


Lemma app_POST_flush_fault w p v cause :
  TaskCreate_validate ["body"] p = Valid v → fault w FLUSH = Some cause →
  app (POST_tasks p) w =
    (http_exception_handler 500 generic_detail,
     mkWorld (table w) (sequence w) (fault w) (calls w ++ [FLUSH]) []
       (stdout w ++ ["Error al crear tarea: " +:+ cause])).
Proof.
  intros H Hf. unfold app, route. rewrite H.
  by rewrite (create_task_flush_fault _ _ cause) by eauto using validate_fits.
Qed.

Lemma app_POST_refresh_fault w p v cause :
  TaskCreate_validate ["body"] p = Valid v →
  fault w FLUSH = None → fault w REFRESH = Some cause →
  app (POST_tasks p) w =
    (http_exception_handler 500 generic_detail,
     mkWorld (table w ++ [mkRow (sequence w) v]) (sequence w + 1) (fault w)
       (calls w ++ [FLUSH; REFRESH]) []
       (stdout w ++ ["Error al crear tarea: " +:+ cause])).
Proof.
  intros H Hf Hr. unfold app, route. rewrite H.
  by rewrite (create_task_refresh_fault _ _ cause) by eauto using validate_fits.
Qed.

Lemma app_POST_created w p v :
  TaskCreate_validate ["body"] p = Valid v →
  fault w FLUSH = None → fault w REFRESH = None →
  Forall (λ r, row_id r ≠ sequence w) (table w) →
  app (POST_tasks p) w =
    (mkResponse 201 (JSONBody (TaskRead_json (mkTaskRead v (sequence w)))),
     mkWorld (table w ++ [mkRow (sequence w) v]) (sequence w + 1) (fault w)
       (calls w ++ [FLUSH; REFRESH]) [] (stdout w)).
Proof.
  intros H Hf Hr Hfresh. unfold app, route. rewrite H.
  pose proof (validate_fits _ _ _ H) as Hlen.
  rewrite create_task_stored by done.
  unfold TaskRead_validate. simpl. apply Nat.leb_le in Hlen. by rewrite Hlen.
Qed.

Lemma read_tasks_listed w :
  Forall (λ r, (len (title (row_data r)) ≤ 255)%nat) (table w) →
  fault w SELECT_ALL = None →
  app GET_tasks w =
    (mkResponse 200 (JSONBody (JArr (TaskRead_json <$> (TaskRead_of_row <$> table w)))),
     mkWorld (table w) (sequence w) (fault w) (calls w ++ [SELECT_ALL]) [] (stdout w)).
Proof.
  intros Hfit Hf. destruct w as [t n f c s o]. simpl in *.
  unfold app, route, get_session, read_tasks, session_exec_select_all, mbind, M_bind. simpl.
  rewrite Hf. simpl. unfold TaskRead_list_json.
  assert (mapM (λ obj, TaskRead_json <$> TaskRead_validate obj)
            ((λ r, mkTask (row_data r) (Some (row_id r))) <$> t)
          = Some (TaskRead_json <$> (TaskRead_of_row <$> t))) as ->; [|done].
  apply mapM_Some_2. induction Hfit as [|r t Hr _ IH]; constructor; [|done].
  unfold TaskRead_validate. simpl. apply Nat.leb_le in Hr. by rewrite Hr.
Qed.

Lemma read_tasks_fault w cause :
  fault w SELECT_ALL = Some cause →
  app GET_tasks w =
    (server_error,
     mkWorld (table w) (sequence w) (fault w) (calls w ++ [SELECT_ALL]) [] (stdout w)).
Proof.
  intros Hf. destruct w as [t n f c s o]. simpl in *.
  unfold app, route, get_session, read_tasks, session_exec_select_all, mbind, M_bind. simpl.
  by rewrite Hf.
Qed.

(** ** Ids and Tasks in a response *)

Lemma id_of_TaskRead_json t : id_of_json (TaskRead_json t) = Some (TaskRead_id t).
Proof. unfold id_of_json, TaskRead_json. by simplify_map_eq. Qed.

Lemma ids_of_task_response st t :
  ids_of_response (mkResponse st (JSONBody (TaskRead_json t))) = [TaskRead_id t].
Proof. unfold ids_of_response. simpl. unfold TaskRead_json. by simplify_map_eq. Qed.

Lemma ids_of_list_response st ts :
  ids_of_response (mkResponse st (JSONBody (JArr (TaskRead_json <$> ts)))) = TaskRead_id <$> ts.
Proof.
  unfold ids_of_response. simpl. induction ts as [|t ts IH]; [done|].
  rewrite !fmap_cons. cbn [omap list_omap]. rewrite id_of_TaskRead_json. by rewrite IH.
Qed.

Lemma ids_of_detail_response st d :
  ids_of_response (mkResponse st (JSONBody (JObj {["detail" := d]}))) = [].
Proof. done. Qed.

Lemma observed_snoc rs r : observed (rs ++ [r]) = observed rs ++ ids_of_response r.
Proof. unfold observed. rewrite bind_app. simpl. by rewrite app_nil_r. Qed.




(** ** Every state of the service is consistent *)

Lemma keys_below_fresh (t : list Row) n :
  Forall (λ r, 0 < row_id r < n) t → Forall (λ r, row_id r ≠ n) t.
Proof. intros H. eapply Forall_impl; [exact H|]. simpl. intros. lia. Qed.

#[local] Ltac below :=
  match goal with
  | H : Forall _ ?l |- Forall _ ?l =>
      eapply Forall_impl; [exact H|]; simpl; intros; lia
  end.

Lemma consistent_start : consistent (mkServer new_world []).
Proof. by split. Qed.

Lemma consistent_serve s ev : consistent s → consistent (serve s ev).
Proof.
  intros [Hs Hk Ht Ho]. destruct ev as [f req], s as [w rs]. unfold serve. simpl in *.
  destruct req as [|p|]; cbn [fst snd].
  - split; simpl; try done. by rewrite observed_snoc, app_nil_r.
  - destruct (TaskCreate_validate ["body"] p) as [v|errors] eqn:Hv.
    + pose proof (validate_fits _ _ _ Hv) as Hlen.
      destruct (f FLUSH) as [cause|] eqn:Hf.
      { rewrite (app_POST_flush_fault _ _ v cause) by done.
        split; simpl; try done. by rewrite observed_snoc, app_nil_r. }
      assert (Hrows : Forall (λ r, 0 < row_id r < sequence w + 1)
                        (table w ++ [mkRow (sequence w) v])).
      { apply Forall_app. split; [below|]. constructor; [simpl; lia|done]. }
      assert (Hfits : Forall (λ r, (len (title (row_data r)) ≤ 255)%nat)
                        (table w ++ [mkRow (sequence w) v])).
      { apply Forall_app. split; [done|]. by constructor. }
      destruct (f REFRESH) as [cause|] eqn:Hr.
      * rewrite (app_POST_refresh_fault _ _ v cause) by done.
        split; simpl; try done; [lia|].
        rewrite observed_snoc, app_nil_r. below.
      * rewrite (app_POST_created _ _ v) by (try done; by apply keys_below_fresh).
        split; simpl; try done; [lia|].
        rewrite observed_snoc, ids_of_task_response. simpl.
        apply Forall_app. split; [below|]. constructor; [lia|done].
    + rewrite (app_POST_invalid _ _ errors) by done.
      split; simpl; try done. by rewrite observed_snoc, app_nil_r.
  - destruct (f SELECT_ALL) as [cause|] eqn:Hf.
    + rewrite (read_tasks_fault _ cause) by done.
      split; simpl; try done. by rewrite observed_snoc, app_nil_r.
    + rewrite read_tasks_listed by done.
      split; simpl; try done.
      rewrite observed_snoc, ids_of_list_response.
      apply Forall_app. split; [done|].
      rewrite <- list_fmap_compose. by apply Forall_fmap.
Qed.

Lemma run_snoc evs ev : run (evs ++ [ev]) = serve (run evs) ev.
Proof. unfold run. by rewrite foldl_app. Qed.

Lemma consistent_run evs : consistent (run evs).
Proof.
  induction evs as [|ev evs IH] using rev_ind.
  - apply consistent_start.
  - rewrite run_snoc. by apply consistent_serve.
Qed.

(** ** The scenario of the test suite, run *)

Example scenario_create :
  (app (POST_tasks comprar_leche) new_world).1 =
  mkResponse 201 (JSONBody (TaskRead_json
    (mkTaskRead (mkTaskBase "Comprar leche" (Some "Leche entera") false) 1))).
Proof. vm_compute. reflexivity. Qed.

Example scenario_read :
  sent (run [(database_up, POST_tasks comprar_leche); (database_up, GET_tasks)]) !! 1%nat =
  Some (mkResponse 200 (JSONBody (JArr [TaskRead_json
    (mkTaskRead (mkTaskBase "Comprar leche" (Some "Leche entera") false) 1)]))).
Proof. vm_compute. reflexivity. Qed.

(** The empty title, which the amended rule leaves aside, is accepted. *)
Example empty_title_accepted :
  TaskCreate_validate ["body"] {["title" := JStr ""]} = Valid (mkTaskBase "" None false).
Proof. by vm_compute. Qed.

Example is_completed_yes_accepted :
  TaskCreate_validate ["body"]
    (<["title" := JStr "Comprar leche"]> {["is_completed" := JStr "YES"]})
  = Valid (mkTaskBase "Comprar leche" None true).
Proof. by vm_compute. Qed.

Example is_completed_2_rejected :
  TaskCreate_validate ["body"]
    (<["title" := JStr "Comprar leche"]> {["is_completed" := JInt 2]})
  = Invalid [mkError "bool_parsing" ["body"; "is_completed"]
               "Input should be a valid boolean, unable to interpret input" (JInt 2)].
Proof. by vm_compute. Qed.

Example title_300_rejected :
  errors_of (TaskCreate_validate ["body"] {["title" := JStr (str_mul "A" 300)]})
  = [mkError "string_too_long" ["body"; "title"]
       "String should have at most 255 characters" (JStr (str_mul "A" 300))].
Proof. by vm_compute. Qed.

(** Two creates of the same view are two rows: the table has no rule
    against it. *)
Example same_view_twice :
  tasks_of_response
    (respond (run [(database_up, POST_tasks comprar_leche);
                   (database_up, POST_tasks comprar_leche)])
       (database_up, GET_tasks))
  = Some [mkTaskRead (mkTaskBase "Comprar leche" (Some "Leche entera") false) 1;
          mkTaskRead (mkTaskBase "Comprar leche" (Some "Leche entera") false) 2].
Proof. by vm_compute. Qed.

Example unknown_field_example :
  app (POST_tasks (<["priority" := JInt 3]> comprar_leche)) new_world
  = app (POST_tasks comprar_leche) new_world.
Proof. by vm_compute. Qed.

(** ** The properties of the service *)











(** C5. A create request that passes validation and whose insert fails
    with any [cause] is answered 500 with the fixed object
    [{"detail": "Error interno del servidor al procesar la solicitud."}],
    the same for every cause; the cause goes to the server's output only;
    the database was called once, for the insert, and no row was stored. *)
Theorem create_task_insert_fails (w : World) (p : gmap string JSON) (v : TaskCreate)
    (cause : string) :
  TaskCreate_validate ["body"] p = Valid v →
  fault w FLUSH = Some cause →
  (app (POST_tasks p) w).1 =
    mkResponse 500
      (JSONBody (JObj {["detail" :=
         JStr "Error interno del servidor al procesar la solicitud."]})) ∧
  stdout (app (POST_tasks p) w).2 = stdout w ++ ["Error al crear tarea: " +:+ cause] ∧
  calls (app (POST_tasks p) w).2 = calls w ++ [FLUSH] ∧
  table (app (POST_tasks p) w).2 = table w.
Proof. intros Hv Hdown. by rewrite (app_POST_flush_fault w p v cause). Qed.

Lemma create_task_insert_fails_witness :
  let w := set_fault (database_down "connection refused") new_world in
  (app (POST_tasks comprar_leche) w).1 =
    mkResponse 500
      (JSONBody (JObj {["detail" :=
         JStr "Error interno del servidor al procesar la solicitud."]})) ∧
  stdout (app (POST_tasks comprar_leche) w).2
    = stdout w ++ ["Error al crear tarea: " +:+ "connection refused"] ∧
  calls (app (POST_tasks comprar_leche) w).2 = calls w ++ [FLUSH] ∧
  table (app (POST_tasks comprar_leche) w).2 = table w.
Proof.
  intros w.
  apply (create_task_insert_fails w comprar_leche
           (mkTaskBase "Comprar leche" (Some "Leche entera") false)
           "connection refused").
  - vm_compute. reflexivity.
  - reflexivity.
Defined.

(** C6. When the database fails the query of the list endpoint, whatever
    the cause, the client receives 500 with the fixed text
    [Internal Server Error]: the same answer for every cause.  Nothing is
    stored or printed. *)
Theorem read_tasks_unreachable (w : World) (cause : string) :
  fault w SELECT_ALL = Some cause →
  (app GET_tasks w).1 = mkResponse 500 (TextBody "Internal Server Error") ∧
  table (app GET_tasks w).2 = table w ∧
  stdout (app GET_tasks w).2 = stdout w.
Proof. intros Hdown. by rewrite (read_tasks_fault w cause). Qed.

Lemma read_tasks_unreachable_witness :
  (app GET_tasks (set_fault (database_down "connection refused") new_world)).1
    = mkResponse 500 (TextBody "Internal Server Error") ∧
  table (app GET_tasks (set_fault (database_down "connection refused") new_world)).2 = [] ∧
  stdout (app GET_tasks (set_fault (database_down "connection refused") new_world)).2 = [].
Proof.
  apply (read_tasks_unreachable
           (set_fault (database_down "connection refused") new_world)
           "connection refused").
  reflexivity.
Defined.

(** C7. A create request whose payload has no [is_completed] and passes
    validation stores, when the database takes the insert, one new row, and
    the [is_completed] of that row is false. *)
Theorem is_completed_default (w : World) (p : gmap string JSON) (v : TaskCreate) :
  p !! "is_completed" = None →
  TaskCreate_validate ["body"] p = Valid v →
  fault w FLUSH = None →
  table (app (POST_tasks p) w).2 = table w ++ [mkRow (sequence w) v] ∧
  is_completed v = false.
Proof.
  intros Hnone Hv Hflush. split.
  - unfold app. rewrite Hv, route_world.
    apply create_task_table; eauto using validate_fits.
  - apply TaskBase_validate_Valid in Hv as (_ & _ & Hc).
    unfold is_completed_field, model_field in Hc. rewrite Hnone in Hc. congruence.
Qed.

Lemma is_completed_default_witness :
  table (app (POST_tasks {["title" := JStr "Comprar leche"]}) new_world).2
    = [mkRow 1 (mkTaskBase "Comprar leche" None false)] ∧
  is_completed (mkTaskBase "Comprar leche" None false) = false.
Proof.
  apply (is_completed_default new_world {["title" := JStr "Comprar leche"]}
           (mkTaskBase "Comprar leche" None false)).
  - vm_compute. reflexivity.
  - vm_compute. reflexivity.
  - reflexivity.
Defined.

(** C8. Whatever the state of the world, the database included, the health
    endpoint answers 200 with exactly the object
    [{"status": "ok", "message": "API is running!"}], and leaves the world as
    it found it: no call to the database, nothing stored, nothing printed. *)
Theorem health_check_fixed (w : World) :
  app GET_health w =
    (mkResponse 200
       (JSONBody (JObj (<["status" := JStr "ok"]>
                       (<["message" := JStr "API is running!"]> ∅)))),
     w).
Proof. reflexivity. Qed.

(** C9. Listing the tasks of a table with no rows, on a database that
    answers the query, gives 200 and the empty array. *)
Theorem read_tasks_empty (w : World) :
  table w = [] → fault w SELECT_ALL = None →
  (app GET_tasks w).1 = mkResponse 200 (JSONBody (JArr [])).
Proof.
  intros Hrows Hup. rewrite read_tasks_listed; [|by rewrite Hrows|done].
  by rewrite Hrows.
Qed.

Lemma read_tasks_empty_witness :
  (app GET_tasks new_world).1 = mkResponse 200 (JSONBody (JArr [])).
Proof. apply (read_tasks_empty new_world); reflexivity. Defined.


(** ** [create_task] and the routes in any world *)

Lemma find_inserted_row (t : list Row) n v :
  ∃ r, List.find (λ r, bool_decide (row_id r = n)) (t ++ [mkRow n v]) = Some r
       ∧ row_id r = n ∧ r ∈ t ++ [mkRow n v].
Proof.
  induction t as [|r0 t IH]; simpl.
  - rewrite bool_decide_eq_true_2 by done. eexists. split_and!; [done..|]. by left.
  - destruct (bool_decide (row_id r0 = n)) eqn:E.
    + apply bool_decide_eq_true in E. exists r0. split_and!; [done..|]. by left.
    + destruct IH as (r & Hf & Hid & Hin). exists r. split_and!; [done..|]. by right.
Qed.


Lemma create_task_returns w v :
  (len (title v) ≤ 255)%nat → fault w FLUSH = None → fault w REFRESH = None →
  ∃ r, r ∈ table w ++ [mkRow (sequence w) v] ∧ row_id r = sequence w ∧
    get_session (create_task v) w =
      (Return (mkTask (row_data r) (Some (sequence w))),
       mkWorld (table w ++ [mkRow (sequence w) v]) (sequence w + 1) (fault w)
         (calls w ++ [FLUSH; REFRESH]) [] (stdout w)).
Proof.
  intros Hlen Hf Hr. destruct w as [t n f c s o]. simpl in *.
  destruct (find_inserted_row t n v) as (r & Hfind & Hid & Hin).
  exists r. split_and!; [done..|].
  unfold get_session, create_task, try_except, Task_model_validate.
  apply Nat.leb_le in Hlen. rewrite Hlen.
  unfold mbind, M_bind, mret, M_ret, session_add, session_commit, session_refresh, deref. simpl.
  rewrite Hf. simpl. rewrite Hr. simpl. rewrite Hfind. simpl.
  unfold set_session, record_call, set_table_sequence. simpl.
  by rewrite <- app_assoc.
Qed.

(** What the create route does with a payload that passes validation: the
    insert fails, or the refresh fails after the insert, or both are taken
    and the row read back is sent through the output view. *)
Lemma app_POST_valid_cases w p v :
  TaskCreate_validate ["body"] p = Valid v →
  (∃ cause, fault w FLUSH = Some cause ∧
     app (POST_tasks p) w =
       (http_exception_handler 500 generic_detail,
        mkWorld (table w) (sequence w) (fault w) (calls w ++ [FLUSH]) []
          (stdout w ++ ["Error al crear tarea: " +:+ cause])))
  ∨ (∃ cause, fault w FLUSH = None ∧ fault w REFRESH = Some cause ∧
     app (POST_tasks p) w =
       (http_exception_handler 500 generic_detail,
        mkWorld (table w ++ [mkRow (sequence w) v]) (sequence w + 1) (fault w)
          (calls w ++ [FLUSH; REFRESH]) []
          (stdout w ++ ["Error al crear tarea: " +:+ cause])))
  ∨ (∃ r, fault w FLUSH = None ∧ fault w REFRESH = None ∧
     r ∈ table w ++ [mkRow (sequence w) v] ∧ row_id r = sequence w ∧
     app (POST_tasks p) w =
       (if (len (title (row_data r)) <=? 255)%nat
        then mkResponse 201 (JSONBody (TaskRead_json (TaskRead_of_row r)))
        else server_error,
        mkWorld (table w ++ [mkRow (sequence w) v]) (sequence w + 1) (fault w)
          (calls w ++ [FLUSH; REFRESH]) [] (stdout w))).
Proof.
  intros Hv. pose proof (validate_fits _ _ _ Hv) as Hlen.
  destruct (fault w FLUSH) as [cause|] eqn:Hf.
  { left. exists cause. split; [done|]. by apply (app_POST_flush_fault w p v cause). }
  destruct (fault w REFRESH) as [cause|] eqn:Hr.
  { right. left. exists cause. split_and!; [done..|].
    by apply (app_POST_refresh_fault w p v cause). }
  right. right. destruct (create_task_returns w v Hlen Hf Hr) as (r & Hin & Hid & Hrun).
  exists r. split_and!; [done..|].
  unfold app, route. rewrite Hv, Hrun. unfold TaskRead_validate, TaskRead_of_row. simpl.
  rewrite <- Hid. by destruct (len (title (row_data r)) <=? 255)%nat.
Qed.

(** What the list route does: the query fails, or the rows are sent
    through the output view. *)
Lemma app_GET_tasks_cases w :
  (∃ cause, fault w SELECT_ALL = Some cause ∧ (app GET_tasks w).1 = server_error)
  ∨ (fault w SELECT_ALL = None ∧
     ((app GET_tasks w).1 = server_error ∨
      (app GET_tasks w).1 =
        mkResponse 200 (JSONBody (JArr (TaskRead_json <$> (TaskRead_of_row <$> table w)))))).
Proof.
  destruct (fault w SELECT_ALL) as [cause|] eqn:Hf.
  { left. exists cause. split; [done|]. by rewrite (read_tasks_fault w cause). }
  right. split; [done|].
  destruct (decide (Forall (λ r, (len (title (row_data r)) ≤ 255)%nat) (table w)))
    as [Hfit|Hbad].
  { right. by rewrite read_tasks_listed. }
  left. destruct w as [t n f c s o]. simpl in *.
  unfold app, route, get_session, read_tasks, session_exec_select_all, mbind, M_bind. simpl.
  rewrite Hf. simpl. unfold TaskRead_list_json.
  assert (mapM (λ obj, TaskRead_json <$> TaskRead_validate obj)
            ((λ r, mkTask (row_data r) (Some (row_id r))) <$> t) = None) as ->; [|done].
  apply mapM_None_2. apply not_Forall_Exists in Hbad; [|apply _].
  apply Exists_fmap. eapply Exists_impl; [exact Hbad|]. simpl. intros r Hr.
  unfold TaskRead_validate. simpl.
  assert ((len (title (row_data r)) <=? 255)%nat = false) as ->; [|done].
  apply Nat.leb_gt. lia.
Qed.

Lemma app_GET_tasks_world w :
  (app GET_tasks w).2 =
    mkWorld (table w) (sequence w) (fault w) (calls w ++ [SELECT_ALL]) [] (stdout w).
Proof.
  destruct w as [t n f c s o].
  unfold app. rewrite route_world.
  unfold get_session, read_tasks, session_exec_select_all, mbind, M_bind. simpl.
  by destruct (f SELECT_ALL).
Qed.

(** One request changes the table in one of two ways: not at all, or by one
    row at the end, keyed by the sequence, for a create that passed
    validation and whose insert was taken. *)
Lemma app_table_step req w :
  (table (app req w).2 = table w ∧ sequence (app req w).2 = sequence w)
  ∨ (∃ p v, req = POST_tasks p ∧ TaskCreate_validate ["body"] p = Valid v ∧
       fault w FLUSH = None ∧
       table (app req w).2 = table w ++ [mkRow (sequence w) v] ∧
       sequence (app req w).2 = sequence w + 1).
Proof.
  destruct req as [|p|].
  - by left.
  - destruct (TaskCreate_validate ["body"] p) as [v|errors] eqn:Hv.
    + destruct (app_POST_valid_cases w p v Hv)
        as [(cause & Hf & ->)|[(cause & Hf & Hr & ->)|(r & Hf & Hr & _ & _ & ->)]].
      * by left.
      * right. by exists p, v.
      * right. by exists p, v.
    + left. by rewrite (app_POST_invalid w p errors).
  - left. by rewrite app_GET_tasks_world.
Qed.

(** ** Further properties of the handlers and the routes *)





(** X4. The status codes of the three routes, in every world: the health
    check answers 200; a create 201, 422 or 500; a list 200 or 500. *)
Theorem status_codes_of_routes (req : Request) (w : World) :
  status_code (app req w).1 ∈
    match req with
    | GET_health => [200]
    | POST_tasks _ => [201; 422; 500]
    | GET_tasks => [200; 500]
    end.
Proof.
  destruct req as [|p|].
  - simpl. by left.
  - destruct (TaskCreate_validate ["body"] p) as [v|errors] eqn:Hv.
    + destruct (app_POST_valid_cases w p v Hv)
        as [(cause & Hf & ->)|[(cause & Hf & Hr & ->)|(r & Hf & Hr & _ & _ & ->)]];
        simpl; try (do 2 right; by left).
      destruct (len (title (row_data r)) <=? 255)%nat; simpl;
        [by left | do 2 right; by left].
    + rewrite (app_POST_invalid w p errors) by done. simpl. right. by left.
  - destruct (app_GET_tasks_cases w) as [(cause & _ & ->)|[_ [-> | ->]]]; simpl;
      try (right; by left). by left.
Qed.

(** X5. No request changes or removes a row: the table before is a prefix
    of the table after, which has at most one row more; the sequence never
    goes back; the condition of the database is not the service's to change. *)
Theorem table_append_only (req : Request) (w : World) :
  table w `prefix_of` table (app req w).2 ∧
  (length (table (app req w).2) ≤ S (length (table w)))%nat ∧
  sequence w ≤ sequence (app req w).2.
Proof.
  destruct (app_table_step req w) as [[-> ->]|(p & v & _ & _ & _ & -> & ->)].
  - split_and!; [done|lia|lia].
  - split_and!; [by apply prefix_app_r|rewrite length_app; simpl; lia|lia].
Qed.



Lemma serve_world s ev : world (serve s ev) = (app ev.2 (set_fault ev.1 (world s))).2.
Proof. unfold serve. by destruct (app _ _). Qed.

Lemma serve_table_step s ev :
  table (world (serve s ev)) =
    table (world s) ++
    (if stores ev
     then match ev.2 with
          | POST_tasks p =>
              match TaskCreate_validate ["body"] p with
              | Valid v => [mkRow (sequence (world s)) v]
              | Invalid _ => []
              end
          | _ => []
          end
     else []).
Proof.
  rewrite serve_world. destruct ev as [f req]. unfold stores. cbn [fst snd].
  destruct req as [|p|].
  - by rewrite app_nil_r.
  - destruct (TaskCreate_validate ["body"] p) as [v|errors] eqn:Hv; cbn [is_valid andb].
    + destruct (app_POST_valid_cases (set_fault f (world s)) p v Hv)
        as [(cause & Hf & ->)|[(cause & Hf & Hr & ->)|(r & Hf & Hr & _ & _ & ->)]];
        simpl in *; rewrite Hf.
      * rewrite bool_decide_eq_false_2 by done. by rewrite app_nil_r.
      * by rewrite bool_decide_eq_true_2.
      * by rewrite bool_decide_eq_true_2.
    + rewrite (app_POST_invalid _ p errors) by done. simpl. by rewrite app_nil_r.
  - rewrite app_GET_tasks_world. simpl. by rewrite app_nil_r.
Qed.

(** X7. Over any history of requests, the table holds one row for each
    create that passed validation while the database took the insert, and no
    other row: rejected payloads, failed inserts, lists and health checks add
    nothing, and a create whose refresh failed still counts. *)
Theorem one_row_per_stored_create (evs : list ((DbCall → option string) * Request)) :
  length (table (world (run evs))) = length (filter (λ ev, stores ev) evs).
Proof.
  induction evs as [|ev evs IH] using rev_ind; [done|].
  rewrite run_snoc, serve_table_step, filter_app, !length_app, IH. f_equal.
  destruct (stores ev) eqn:Hs.
  - rewrite filter_cons_True by by rewrite Hs. rewrite filter_nil.
    unfold stores in Hs. destruct ev as [f [|p|]]; try done. cbn [fst snd] in *.
    by destruct (TaskCreate_validate ["body"] p).
  - rewrite filter_cons_False; [done|]. rewrite Hs. by intros [].
Qed.

Lemma keys_distinct evs : NoDup (row_id <$> table (world (run evs))).
Proof.
  induction evs as [|[f req] evs IH] using rev_ind; [constructor|].
  rewrite run_snoc, serve_world. cbn [fst snd].
  destruct (consistent_run evs) as [_ Hk _ _].
  destruct (app_table_step req (set_fault f (world (run evs))))
    as [[-> _]|(p & v & _ & _ & _ & -> & _)]; [done|].
  cbn [table sequence set_fault]. rewrite fmap_app. apply NoDup_app. split_and!.
  - done.
  - intros i Hi Hnew. apply list_elem_of_singleton in Hnew. simpl in Hnew. subst i.
    apply list_elem_of_fmap in Hi as (r & Hid & Hr).
    rewrite Forall_forall in Hk. specialize (Hk r Hr). lia.
  - apply NoDup_singleton.
Qed.

(** X8. At any point in the life of the service, a list on a database that
    answers the query is answered 200 with every stored row, in storage
    order, each under its own id: the ids of the response are pairwise
    distinct, and the route never fails on what the service itself stored. *)
Theorem read_tasks_lists_every_row (evs : list ((DbCall → option string) * Request))
    (f : DbCall → option string) :
  f SELECT_ALL = None →
  respond (run evs) (f, GET_tasks) =
    mkResponse 200
      (JSONBody (JArr (TaskRead_json <$> (TaskRead_of_row <$> table (world (run evs)))))) ∧
  NoDup (TaskRead_id <$> (TaskRead_of_row <$> table (world (run evs)))).
Proof.
  intros Hup. destruct (consistent_run evs) as [_ _ Hfit _]. split.
  - unfold respond. cbn [fst snd]. by rewrite read_tasks_listed.
  - rewrite <- list_fmap_compose. apply keys_distinct.
Qed.

Lemma read_tasks_lists_every_row_witness :
  respond (run [(database_up, POST_tasks comprar_leche)]) (database_up, GET_tasks) =
    mkResponse 200
      (JSONBody (JArr (TaskRead_json <$>
         (TaskRead_of_row <$>
            table (world (run [(database_up, POST_tasks comprar_leche)])))))) ∧
  NoDup (TaskRead_id <$>
    (TaskRead_of_row <$> table (world (run [(database_up, POST_tasks comprar_leche)])))).
Proof.
  apply (read_tasks_lists_every_row [(database_up, POST_tasks comprar_leche)] database_up).
  reflexivity.
Defined.

(** X9. A create answered 201 has stored what it shows: the body is the
    output view of a row that is in the table afterwards, and the id in it is
    the value the sequence had when the request arrived.  This holds in every
    world. *)
Theorem created_task_is_stored (p : gmap string JSON) (w : World) :
  status_code (app (POST_tasks p) w).1 = 201 →
  ∃ r, body (app (POST_tasks p) w).1 = JSONBody (TaskRead_json (TaskRead_of_row r)) ∧
       r ∈ table (app (POST_tasks p) w).2 ∧
       row_id r = sequence w.
Proof.
  intros Hst. destruct (TaskCreate_validate ["body"] p) as [v|errors] eqn:Hv.
  - destruct (app_POST_valid_cases w p v Hv)
      as [(cause & Hf & Heq)|[(cause & Hf & Hr & Heq)|(r & Hf & Hr & Hin & Hid & Heq)]];
      rewrite Heq in Hst |- *; simpl in Hst; try done.
    exists r. destruct (len (title (row_data r)) <=? 255)%nat; [done|].
    simpl in Hst. done.
  - rewrite (app_POST_invalid w p errors) in Hst by done. done.
Qed.

Lemma created_task_is_stored_witness :
  ∃ r, body (app (POST_tasks comprar_leche) new_world).1
         = JSONBody (TaskRead_json (TaskRead_of_row r)) ∧
       r ∈ table (app (POST_tasks comprar_leche) new_world).2 ∧
       row_id r = sequence new_world.
Proof.
  apply (created_task_is_stored comprar_leche new_world).
  vm_compute. reflexivity.
Defined.

Lemma errors_of_model_field {A} name (default : option A) (v : Validators.Validator A)
    loc (p : gmap string JSON) :
  (∀ x, err_loc <$> errors_of (v (loc ++ [name]) x) = []
        ∨ err_loc <$> errors_of (v (loc ++ [name]) x) = [loc ++ [name]]) →
  err_loc <$> errors_of (model_field name default v loc p) = []
  ∨ err_loc <$> errors_of (model_field name default v loc p) = [loc ++ [name]].
Proof.
  intros Hv. unfold model_field. destruct (p !! name) as [x|]; [apply Hv|].
  destruct default; [by left|by right].
Qed.

Lemma errors_of_TaskBase_validate loc p :
  errors_of (TaskBase_validate loc p) =
    errors_of (title_field loc p) ++ errors_of (description_field loc p)
      ++ errors_of (is_completed_field loc p).
Proof.
  unfold TaskBase_validate.
  by destruct (title_field loc p), (description_field loc p), (is_completed_field loc p).
Qed.

(** X10. The errors of a rejected payload name their fields: the locations
    in the error list are drawn, in this order and each at most once, from
    [["body","title"]], [["body","description"]] and
    [["body","is_completed"]]. *)
Theorem errors_name_their_fields (p : gmap string JSON) :
  (err_loc <$> errors_of (TaskCreate_validate ["body"] p))
    `sublist_of` [["body"; "title"]; ["body"; "description"]; ["body"; "is_completed"]].
Proof.
  unfold TaskCreate_validate. rewrite errors_of_TaskBase_validate, !fmap_app.
  assert (Ht : err_loc <$> errors_of (title_field ["body"] p) = []
               ∨ err_loc <$> errors_of (title_field ["body"] p) = [["body"; "title"]]).
  { apply (errors_of_model_field "title"). intros x. unfold str_validator.
    destruct x; try (by right). destruct (len s <=? 255)%nat; [by left|by right]. }
  assert (Hd : err_loc <$> errors_of (description_field ["body"] p) = []
               ∨ err_loc <$> errors_of (description_field ["body"] p)
                 = [["body"; "description"]]).
  { apply (errors_of_model_field "description"). intros x. unfold nullable, str_validator.
    destruct x; first [by left | by right]. }
  assert (Hc : err_loc <$> errors_of (is_completed_field ["body"] p) = []
               ∨ err_loc <$> errors_of (is_completed_field ["body"] p)
                 = [["body"; "is_completed"]]).
  { apply (errors_of_model_field "is_completed"). intros x. unfold bool_validator.
    destruct (as_bool x); [by left|]. destruct x; by right. }
  destruct Ht as [-> | ->], Hd as [-> | ->], Hc as [-> | ->]; simpl;
    repeat first [apply sublist_nil | apply sublist_skip | apply sublist_cons].
Qed.

(** X11. An accepted payload is taken as it is: the title of the view is
    the title sent, character for character; the description is the string
    sent, and none when the key is absent or null; the flag is what the value
    sent reads as, and false when the key is absent. *)
Theorem accepted_view_reflects_payload (p : gmap string JSON) (v : TaskCreate) :
  TaskCreate_validate ["body"] p = Valid v →
  p !! "title" = Some (JStr (title v)) ∧
  match p !! "description" with
  | Some (JStr s) => description v = Some s
  | _ => description v = None
  end ∧
  match p !! "is_completed" with
  | Some x => as_bool x = Some (is_completed v)
  | None => is_completed v = false
  end.
Proof.
  intros Hv. apply TaskBase_validate_Valid in Hv as (Ht & Hd & Hc). split_and!.
  - by apply title_field_Valid in Ht as [? _].
  - unfold description_field, model_field, nullable, str_validator in Hd.
    destruct (p !! "description") as [[]|]; congruence.
  - unfold is_completed_field, model_field, bool_validator in Hc.
    destruct (p !! "is_completed") as [x|]; [|congruence].
    destruct (as_bool x); [congruence|]. by destruct x.
Qed.

Lemma accepted_view_reflects_payload_witness :
  leche_null_1 !! "title" = Some (JStr "Comprar leche") ∧
  match leche_null_1 !! "description" with
  | Some (JStr s) => description (mkTaskBase "Comprar leche" None true) = Some s
  | _ => description (mkTaskBase "Comprar leche" None true) = None
  end ∧
  match leche_null_1 !! "is_completed" with
  | Some x => as_bool x = Some (is_completed (mkTaskBase "Comprar leche" None true))
  | None => is_completed (mkTaskBase "Comprar leche" None true) = false
  end.
Proof.
  apply (accepted_view_reflects_payload leche_null_1 (mkTaskBase "Comprar leche" None true)).
  vm_compute. reflexivity.
Defined.







Lemma created_ids_snoc rs r :
  created_ids (rs ++ [r]) =
    created_ids rs ++ (if decide (status_code r = 201) then ids_of_response r else []).
Proof.
  unfold created_ids. rewrite filter_app, bind_app. f_equal.
  destruct (decide (status_code r = 201)) as [H|H].
  - rewrite filter_cons_True by done. simpl. by rewrite app_nil_r.
  - by rewrite filter_cons_False.
Qed.

Lemma created_ids_observed rs : created_ids rs ⊆ observed rs.
Proof.
  intros i. unfold created_ids, observed. rewrite !list_elem_of_bind.
  intros (r & Hi & Hr). exists r. split; [done|].
  by apply list_elem_of_filter in Hr as [_ ?].
Qed.

(** X16. No two creates are ever answered with the same id: over any
    history of requests, the ids of the responses 201 are pairwise
    distinct. *)
Theorem created_ids_distinct (evs : list ((DbCall → option string) * Request)) :
  NoDup (created_ids (sent (run evs))).
Proof.
  induction evs as [|[f req] evs IH] using rev_ind; [constructor|].
  rewrite run_snoc. pose proof (consistent_run evs) as [Hs Hk Hfit Ho].
  destruct (run evs) as [w rs]. unfold serve. cbn [fst snd world sent] in *.
  destruct (app req (set_fault f w)) as [r w'] eqn:Happ. cbn [sent].
  rewrite created_ids_snoc. destruct (decide (status_code r = 201)) as [H201|_];
    [|by rewrite app_nil_r].
  assert (ids_of_response r = [sequence w]) as ->.
  { destruct req as [|p|].
    - injection Happ as <- <-. done.
    - destruct (TaskCreate_validate ["body"] p) as [v|errors] eqn:Hv.
      + destruct (app_POST_valid_cases (set_fault f w) p v Hv)
          as [(cause & Hf & Heq)|[(cause & Hf & Hr & Heq)|(r0 & Hf & Hr & _ & Hid & Heq)]];
          rewrite Heq in Happ; injection Happ as <- <-; try done.
        destruct (len (title (row_data r0)) <=? 255)%nat; [|done].
        rewrite ids_of_task_response. simpl. by rewrite Hid.
      + rewrite (app_POST_invalid _ p errors) in Happ by done.
        injection Happ as <- <-. done.
    - destruct (app_GET_tasks_cases (set_fault f w)) as [(cause & _ & Heq)|[_ [Heq | Heq]]];
        rewrite Happ in Heq; simpl in Heq; subst r; done. }
  apply NoDup_app. split_and!; [done| |apply NoDup_singleton].
  intros i Hi Hnew. apply list_elem_of_singleton in Hnew. subst i.
  apply created_ids_observed in Hi. rewrite Forall_forall in Ho.
  specialize (Ho _ Hi). lia.
Qed.

Lemma run_table_prefix evs evs' :
  table (world (run evs)) `prefix_of` table (world (run (evs ++ evs'))).
Proof.
  induction evs' as [|[f req] evs' IH] using rev_ind.
  - by rewrite app_nil_r.
  - rewrite app_assoc, run_snoc, serve_world. cbn [fst snd].
    etrans; [exact IH|].
    destruct (app_table_step req (set_fault f (world (run (evs ++ evs')))))
      as [[-> _]|(p & v & _ & _ & _ & -> & _)]; [done|].
    by apply prefix_app_r.
Qed.

(** X17. What a list has shown, every later list shows again, unchanged and
    in the same place: whatever requests come in between, the Tasks of the
    earlier response are a prefix of the Tasks of the later one (both lists on
    a database that answers the query). *)
Theorem listed_stays_listed (evs evs' : list ((DbCall → option string) * Request))
    (f f' : DbCall → option string) :
  f SELECT_ALL = None → f' SELECT_ALL = None →
  ∃ ts ts',
    respond (run evs) (f, GET_tasks)
      = mkResponse 200 (JSONBody (JArr (TaskRead_json <$> ts))) ∧
    respond (run (evs ++ evs')) (f', GET_tasks)
      = mkResponse 200 (JSONBody (JArr (TaskRead_json <$> ts'))) ∧
    ts `prefix_of` ts'.
Proof.
  intros Hup Hup'.
  exists (TaskRead_of_row <$> table (world (run evs))),
         (TaskRead_of_row <$> table (world (run (evs ++ evs')))).
  destruct (consistent_run evs) as [_ _ Hfit _].
  destruct (consistent_run (evs ++ evs')) as [_ _ Hfit' _].
  unfold respond. cbn [fst snd]. rewrite !read_tasks_listed by done.
  split_and!; [done..|].
  destruct (run_table_prefix evs evs') as [k ->]. rewrite fmap_app. by apply prefix_app_r.
Qed.

Lemma listed_stays_listed_witness :
  ∃ ts ts',
    respond (run [(database_up, POST_tasks comprar_leche)]) (database_up, GET_tasks)
      = mkResponse 200 (JSONBody (JArr (TaskRead_json <$> ts))) ∧
    respond (run ([(database_up, POST_tasks comprar_leche)]
                  ++ [(database_up, POST_tasks leche_null_1)])) (database_up, GET_tasks)
      = mkResponse 200 (JSONBody (JArr (TaskRead_json <$> ts'))) ∧
    ts `prefix_of` ts'.
Proof.
  apply (listed_stays_listed [(database_up, POST_tasks comprar_leche)]
           [(database_up, POST_tasks leche_null_1)] database_up database_up);
    reflexivity.
Defined.
